(** * Shallow embedding of the Python binding layer of signal-protocol

    The crate wraps [libsignal_protocol] for Python.  The wrapper code of
    this repository is translated below; every call into the upstream crate
    is a variable of a Section, so that each result holds for every
    behaviour of the upstream library. *)

From Stdlib Require Import String Ascii NArith List Bool Lia.
Import ListNotations.
Open Scope string_scope.

(** ** Results, Python errors and panics *)

(** Rust's [std::result::Result]. *)
Inductive result (T E : Type) : Type :=
| Ok (v : T)
| Err (e : E).
Arguments Ok {T E} v.
Arguments Err {T E} e.

(** Kinds of [libsignal_protocol::SignalProtocolError] used in this file. *)
Inductive ErrorKind : Type :=
| InvalidArgument
| SignatureValidationFailed
| InvalidPreKeyId
| UntrustedIdentity
| StorageFailure.

(** An upstream error: its variant and the text its [Display] prints. *)
Record UpstreamError : Type := mkUpstreamError {
  error_kind : ErrorKind;
  error_message : string
}.

(** error.rs: the wrapper [SignalProtocolError] displays the upstream
    error's [to_string()]. *)
Record SignalProtocolError : Type := mkSignalProtocolError {
  err : UpstreamError
}.

Definition SignalProtocolError_to_string (e : SignalProtocolError) : string :=
  error_message (err e).

(** A Python exception raised from Rust: always a [SignalProtocolException]
    carrying a message string. *)
Record PyErr : Type := SignalProtocolException_new_err {
  py_msg : string
}.

(** [impl From<SignalProtocolError> for PyErr]. *)
Definition PyErr_from (e : SignalProtocolError) : PyErr :=
  SignalProtocolException_new_err (SignalProtocolError_to_string e).

(** [SignalProtocolError::err_from_str]. *)
Definition err_from_str (s : string) : PyErr :=
  SignalProtocolException_new_err s.

(** [SignalProtocolError::new_err]: wrap, then [to_string()]. *)
Definition new_err (e : UpstreamError) : PyErr :=
  let local_error := mkSignalProtocolError e in
  SignalProtocolException_new_err (SignalProtocolError_to_string local_error).

(** What a [#[pymethods]] call does: return [Ok], return [Err] (raised as a
    Python exception) or panic. *)
Inductive PyOutcome (A : Type) : Type :=
| POk (a : A)
| PErr (e : PyErr)
| PPanic (msg : string).
Arguments POk {A} a.
Arguments PErr {A} e.
Arguments PPanic {A} msg.

Definition pbind {A B} (m : PyOutcome A) (k : A -> PyOutcome B) : PyOutcome B :=
  match m with
  | POk a => k a
  | PErr e => PErr e
  | PPanic msg => PPanic msg
  end.

(** [Option::expect]: panics with [msg] on [None]. *)
Definition expect {A} (o : option A) (msg : string) : PyOutcome A :=
  match o with
  | Some a => POk a
  | None => PPanic msg
  end.

(** ** Decimal formatting of a [u8], as [format!("{}", v)] prints it *)

Definition digit_char (d : N) : ascii := ascii_of_N (48 + d).

Definition string_of_u8 (v : N) : string :=
  if (v <? 10)%N then String (digit_char v) EmptyString
  else if (v <? 100)%N then
    String (digit_char (v / 10)) (String (digit_char (v mod 10)) EmptyString)
  else
    String (digit_char (v / 100))
      (String (digit_char ((v / 10) mod 10))
         (String (digit_char (v mod 10)) EmptyString)).

(** ** sealed_sender.rs: [UnidentifiedSenderMessageContent::new] *)

(** The variants of [libsignal_protocol::CiphertextMessageType] that the
    wrapper names. *)
Inductive CiphertextMessageType : Type :=
| Whisper
| PreKey
| SenderKey.

Module SealedSender.
Section USMC.
Context {SenderCertificateData USMCData ContentHint : Type}.
(** [libsignal_protocol::ContentHint::from]. *)
Variable ContentHint_from : N -> ContentHint.
(** [libsignal_protocol::UnidentifiedSenderMessageContent::new]. *)
Variable upstream_usmc_new :
  CiphertextMessageType -> SenderCertificateData -> list Byte.byte ->
  ContentHint -> option (list Byte.byte) -> result USMCData UpstreamError.

Record SenderCertificate : Type := mkSenderCertificate {
  sc_data : SenderCertificateData
}.

Record UnidentifiedSenderMessageContent : Type := mkUSMC {
  usmc_data : USMCData
}.

Definition UnidentifiedSenderMessageContent_new (msg_type_value : N)
    (sender : SenderCertificate) (contents : list Byte.byte)
    (content_hint : N) (group_id : list Byte.byte)
    : PyOutcome UnidentifiedSenderMessageContent :=
  let msg_enum :=
    match msg_type_value with
    | 2%N => Ok Whisper
    | 3%N => Ok PreKey
    | 7%N => Ok SenderKey
    | _ => Err (err_from_str
                  ("unknown message type: " ++ string_of_u8 msg_type_value))
    end in
  match msg_enum with
  | Err e => PErr e
  | Ok msg_enum =>
      match upstream_usmc_new msg_enum (sc_data sender) contents
              (ContentHint_from content_hint) (Some group_id) with
      | Ok data => POk (mkUSMC data)
      | Err err => PErr (new_err err)
      end
  end.
End USMC.
End SealedSender.

(** ** state.rs: [PreKeyBundle::new] *)

Module State.
Section Bundle.
Context {PublicKeyData IdentityKeyData BundleData : Type}.
(** [libsignal_protocol::PreKeyBundle::new]; the one-time prekey is an
    optional (id, key) pair upstream. *)
Variable upstream_bundle_new :
  N -> N -> option (N * PublicKeyData) -> N -> PublicKeyData ->
  list Byte.byte -> IdentityKeyData -> result BundleData UpstreamError.
(** [libsignal_protocol::PreKeyBundle::pre_key_public]. *)
Variable upstream_pre_key_public :
  BundleData -> result (option PublicKeyData) UpstreamError.

Record PublicKey : Type := mkPublicKey { key : PublicKeyData }.
Record IdentityKey : Type := mkIdentityKey { ikey : IdentityKeyData }.
Record PreKeyBundle : Type := mkPreKeyBundle { state : BundleData }.

Definition PreKeyBundle_new (registration_id device_id pre_key_id : N)
    (pre_key_public : option PublicKey) (signed_pre_key_id : N)
    (signed_pre_key_public : PublicKey)
    (signed_pre_key_signature : list Byte.byte)
    (identity_key : IdentityKey) : PyOutcome PreKeyBundle :=
  let pre_key :=
    match pre_key_public with
    | Some inner => Some (key inner)
    | None => None
    end in
  let signed_pre_key := key signed_pre_key_public in
  let identity_key_direct := ikey identity_key in
  pbind (expect pre_key "todo") (fun pk =>
    match upstream_bundle_new registration_id device_id
            (Some (pre_key_id, pk)) signed_pre_key_id signed_pre_key
            signed_pre_key_signature identity_key_direct with
    | Ok state => POk (mkPreKeyBundle state)
    | Err err => PErr (new_err err)
    end).

(** The getter: [Ok(None)] when the upstream bundle has no one-time key. *)
Definition PreKeyBundle_pre_key_public (b : PreKeyBundle)
    : result (option PublicKey) SignalProtocolError :=
  match upstream_pre_key_public (state b) with
  | Ok (Some k) => Ok (Some (mkPublicKey k))
  | Ok None => Ok None
  | Err e => Err (mkSignalProtocolError e)
  end.
End Bundle.
End State.

(** ** protocol.rs: [PreKeySignalMessage::new] *)

Module Protocol.
Section PreKeyMsg.
Context {PublicKeyData IdentityKeyData SignalMessageData PreKeyMsgData
         CiphertextData : Type}.
(** [libsignal_protocol::PreKeySignalMessage::new]; the one-time prekey id
    and the Kyber payload are optional upstream. *)
Variable upstream_pksm_new :
  N -> N -> option N -> N -> option unit -> PublicKeyData ->
  IdentityKeyData -> SignalMessageData -> result PreKeyMsgData UpstreamError.
(** [libsignal_protocol::CiphertextMessage::PreKeySignalMessage]. *)
Variable ciphertext_of_prekey : PreKeyMsgData -> CiphertextData.
(** [libsignal_protocol::PreKeySignalMessage::pre_key_id]. *)
Variable upstream_pre_key_id : PreKeyMsgData -> option N.

Record PreKeySignalMessage : Type := mkPreKeySignalMessage {
  pksm_data : PreKeyMsgData
}.
Record CiphertextMessage : Type := mkCiphertextMessage {
  ctm_data : CiphertextData
}.
Record SignalMessage : Type := mkSignalMessage { sm_data : SignalMessageData }.

Definition PreKeySignalMessage_new (message_version : N)
    (registration_id : N) (pre_key_id : option N) (signed_pre_key_id : N)
    (base_key : State.PublicKey (PublicKeyData := PublicKeyData))
    (identity_key : State.IdentityKey (IdentityKeyData := IdentityKeyData))
    (message : SignalMessage)
    : PyOutcome (PreKeySignalMessage * CiphertextMessage) :=
  pbind (expect pre_key_id "foo") (fun id =>
    match upstream_pksm_new message_version registration_id (Some id)
            signed_pre_key_id None (State.key base_key)
            (State.ikey identity_key) (sm_data message) with
    | Ok upstream_data =>
        let variant_msg := mkPreKeySignalMessage upstream_data in
        let ciphertext_msg :=
          mkCiphertextMessage (ciphertext_of_prekey upstream_data) in
        POk (variant_msg, ciphertext_msg)
    | Err err => PErr (new_err err)
    end).

Definition PreKeySignalMessage_pre_key_id (m : PreKeySignalMessage)
    : option N :=
  upstream_pre_key_id (pksm_data m).
End PreKeyMsg.
End Protocol.

(** ** session.rs: [process_prekey_bundle] and [process_prekey] *)

Module Session.
Section Process.
Context {AddressData StoreData BundleData PreKeyMsgData SessionData Rng : Type}.
(** [libsignal_protocol_rust::process_prekey_bundle]: it mutates the
    session and identity stores it is handed. *)
Variable upstream_process_prekey_bundle :
  AddressData -> StoreData -> BundleData -> Rng ->
  result unit UpstreamError * StoreData.
(** [libsignal_protocol_rust::process_prekey]: it mutates the session
    record and the stores. *)
Variable upstream_process_prekey :
  PreKeyMsgData -> AddressData -> SessionData -> StoreData ->
  result (option N) UpstreamError * SessionData * StoreData.

Record ProtocolAddress : Type := mkProtocolAddress { addr_state : AddressData }.
Record InMemSignalProtocolStore : Type := mkStore { store : StoreData }.

(** The wrapper discards [_e] and raises a fixed message. *)
Definition process_prekey_bundle (remote_address : ProtocolAddress)
    (protocol_store : InMemSignalProtocolStore) (bundle : BundleData)
    (csprng : Rng) : PyOutcome unit * InMemSignalProtocolStore :=
  let '(result, store') :=
    upstream_process_prekey_bundle (addr_state remote_address)
      (store protocol_store) bundle csprng in
  let out :=
    match result with
    | Ok tt => POk tt
    | Err _e => PErr (err_from_str "error processing prekey bundle")
    end in
  (out, mkStore store').

End Process.
End Session.

(** ** uuid.rs: [MyUuid] and group_cipher.rs *)

Module UuidMod.

(** A [uuid::Uuid]: 128 bits, most significant hex digit first. *)
Record Uuid : Type := mkUuid { uuid_bits : N }.

Definition hex_digit (c : ascii) : option N :=
  let n := N_of_ascii c in
  if ((48 <=? n) && (n <=? 57))%N then Some (n - 48)%N
  else if ((97 <=? n) && (n <=? 102))%N then Some (n - 87)%N
  else if ((65 <=? n) && (n <=? 70))%N then Some (n - 55)%N
  else None.

(** The hyphenated form: 32 hex digits with hyphens at positions
    8, 13, 18 and 23, 36 characters in all. *)
Fixpoint parse_hyphenated (s : string) (pos : nat) (acc : N) : option N :=
  match s with
  | EmptyString => if Nat.eqb pos 36 then Some acc else None
  | String c rest =>
      if (Nat.eqb pos 8 || Nat.eqb pos 13 || Nat.eqb pos 18 || Nat.eqb pos 23)%bool
      then if Ascii.eqb c "-"%char then parse_hyphenated rest (S pos) acc else None
      else match hex_digit c with
           | Some d => parse_hyphenated rest (S pos) (acc * 16 + d)%N
           | None => None
           end
  end.

Definition parse_str (s : string) : option Uuid :=
  option_map mkUuid (parse_hyphenated s 0 0%N).

(** The [uuid!] macro parses at compile time; a literal that does not parse
    is a compile error, so the fallback is never taken by the crate. *)
Definition uuid_macro (s : string) : Uuid :=
  match parse_str s with
  | Some u => u
  | None => mkUuid 0
  end.

Record MyUuid : Type := mkMyUuid { uuid : Uuid }.

(** [MyUuid::new], the only constructor Python can call. *)
Definition MyUuid_new : MyUuid :=
  mkMyUuid (uuid_macro "67e55044-10b1-426f-9247-bb680e5fe0c8").

(** [#[derive(Clone)]]. *)
Definition MyUuid_clone (u : MyUuid) : MyUuid := mkMyUuid (uuid u).

(** The [MyUuid] values a Python caller can hold: built by [new], or
    cloned when passed by value to a [#[pyfunction]]. *)
Inductive py_reachable : MyUuid -> Prop :=
| reach_new : py_reachable MyUuid_new
| reach_clone u : py_reachable u -> py_reachable (MyUuid_clone u).

Section Group.
Context {AddressData StoreData SKMData SKDMData Rng : Type}.
(** [libsignal_protocol::group_encrypt] over the sender-key store. *)
Variable upstream_group_encrypt :
  StoreData -> AddressData -> Uuid -> list Byte.byte -> Rng ->
  result SKMData UpstreamError * StoreData.
(** [SenderKeyMessage::serialized]. *)
Variable skm_serialized : SKMData -> list Byte.byte.
(** [libsignal_protocol::create_sender_key_distribution_message]. *)
Variable upstream_create_skdm :
  AddressData -> Uuid -> StoreData -> Rng ->
  result SKDMData UpstreamError * StoreData.

Record ProtocolAddress : Type := mkProtocolAddress { addr_state : AddressData }.
Record InMemSignalProtocolStore : Type := mkStore { store : StoreData }.
Record SenderKeyDistributionMessage : Type := mkSKDM { skdm_data : SKDMData }.

Definition group_encrypt (protocol_store : InMemSignalProtocolStore)
    (sender : ProtocolAddress) (distribution_id : MyUuid)
    (plaintext : list Byte.byte) (csprng : Rng)
    : result (list Byte.byte) SignalProtocolError * InMemSignalProtocolStore :=
  let '(r, store') :=
    upstream_group_encrypt (store protocol_store) (addr_state sender)
      (uuid distribution_id) plaintext csprng in
  match r with
  | Ok ciphertext => (Ok (skm_serialized ciphertext), mkStore store')
  | Err e => (Err (mkSignalProtocolError e), mkStore store')
  end.

Definition create_sender_key_distribution_message (sender : ProtocolAddress)
    (distribution_id : MyUuid) (protocol_store : InMemSignalProtocolStore)
    (csprng : Rng)
    : PyOutcome SenderKeyDistributionMessage * InMemSignalProtocolStore :=
  let '(r, store') :=
    upstream_create_skdm (addr_state sender) (uuid distribution_id)
      (store protocol_store) csprng in
  match r with
  | Ok upstream_data => (POk (mkSKDM upstream_data), mkStore store')
  | Err err => (PErr (new_err err), mkStore store')
  end.
End Group.

Definition fixed_distribution_id : Uuid :=
  mkUuid 0x67e5504410b1426f9247bb680e5fe0c8%N.

End UuidMod.

(** ** state.rs: [generate_n_prekeys] *)

Module Prekeys.

Definition u32_modulus : N := 2 ^ 32.

Section Generate.
Context {KeyPairData RecordData Rng : Type}.
(** Whether the crate is built with overflow checks (debug profile): then
    [i += 1] at [u32::MAX] panics; otherwise it wraps around. *)
Variable overflow_checks : bool.
(** curve.rs [KeyPair::generate], with the random source made explicit. *)
Variable KeyPair_generate : Rng -> KeyPairData * Rng.
(** [libsignal_protocol::PreKeyRecord::new]. *)
Variable upstream_prekey_record_new : N -> KeyPairData -> RecordData.

Record PreKeyRecord : Type := mkPreKeyRecord { pkr_state : RecordData }.

(** [PreKeyRecord::new]: the key pair is rebuilt from its two halves,
    which leaves it unchanged. *)
Definition PreKeyRecord_new (id : N) (keypair : KeyPairData) : PreKeyRecord :=
  mkPreKeyRecord (upstream_prekey_record_new id keypair).

(** [i += 1] on a [u32]. *)
Definition u32_incr (i : N) : PyOutcome N :=
  if overflow_checks then
    if (i + 1 <? u32_modulus)%N then POk (i + 1)%N
    else PPanic "attempt to add with overflow"
  else POk ((i + 1) mod u32_modulus)%N.

(** The body of [for _n in 0..n], run [k] more times. *)
Fixpoint generate_loop (k : nat) (i : N) (rng : Rng)
    (keyvec : list PreKeyRecord) : PyOutcome (list PreKeyRecord) :=
  match k with
  | O => POk keyvec
  | S k' =>
      let '(keypair, rng') := KeyPair_generate rng in
      let prekey := PreKeyRecord_new i keypair in
      let keyvec := (keyvec ++ [prekey])%list in
      pbind (u32_incr i) (fun i => generate_loop k' i rng' keyvec)
  end.

Definition generate_n_prekeys (n : N) (id : N) (rng : Rng)
    : PyOutcome (list PreKeyRecord) :=
  generate_loop (N.to_nat n) id rng [].

(** The key pairs drawn by [k] successive calls of [KeyPair::generate]. *)
Fixpoint generated_keys (k : nat) (rng : Rng) : list KeyPairData :=
  match k with
  | O => []
  | S k' => let '(kp, rng') := KeyPair_generate rng in kp :: generated_keys k' rng'
  end.

(** The ids [i], [i + 1], ... taken modulo [2^32]. *)
Definition prekey_ids (k : nat) (i : N) : list N :=
  map (fun j => ((i + N.of_nat j) mod u32_modulus)%N) (seq 0 k).

(** The records built from paired ids and key pairs. *)
Definition expected_prekeys (ids : list N) (keys : list KeyPairData)
    : list PreKeyRecord :=
  map (fun p => PreKeyRecord_new (fst p) (snd p)) (combine ids keys).
End Generate.
End Prekeys.

(** ** protocol.rs and storage.rs: distribution ids given as strings *)

Module DistId.
Section Parse.
Context {UuidT UuidError SKMData SKDMData CiphertextData PrivateKeyData
         PublicKeyData AddressData StoreData SKRecordData Rng : Type}.
(** [uuid::Uuid::parse_str] and the [Debug] text of its error. *)
Variable parse_str : string -> result UuidT UuidError.
Variable uuid_error_debug : UuidError -> string.
(** [libsignal_protocol::SenderKeyMessage::new]. *)
Variable upstream_skm_new :
  N -> UuidT -> N -> N -> list Byte.byte -> Rng -> PrivateKeyData ->
  result SKMData UpstreamError.
Variable ciphertext_of_sender_key : SKMData -> CiphertextData.
(** [libsignal_protocol::SenderKeyDistributionMessage::new]. *)
Variable upstream_skdm_new :
  N -> UuidT -> N -> N -> list Byte.byte -> PublicKeyData ->
  result SKDMData UpstreamError.
(** The sender-key store operations of the upstream in-memory store. *)
Variable upstream_store_sender_key :
  StoreData -> AddressData -> UuidT -> SKRecordData ->
  result unit UpstreamError * StoreData.
Variable upstream_load_sender_key :
  StoreData -> AddressData -> UuidT ->
  result (option SKRecordData) UpstreamError * StoreData.

Record SenderKeyDistributionMessage : Type := mkSKDM { skdm_data : SKDMData }.






End Parse.
End DistId.

(** ** group_cipher.rs: [group_decrypt] and
    [process_sender_key_distribution_message] *)

Module GroupCipher.
Section Recv.
Context {AddressData StoreData SKDMData : Type}.
(** [libsignal_protocol::group_decrypt]. *)
Variable upstream_group_decrypt :
  list Byte.byte -> StoreData -> AddressData ->
  result (list Byte.byte) UpstreamError * StoreData.
(** [libsignal_protocol::process_sender_key_distribution_message]. *)
Variable upstream_process_skdm :
  AddressData -> SKDMData -> StoreData -> result unit UpstreamError * StoreData.


End Recv.
End GroupCipher.

(** * Properties *)

(** Helper: [u8] formatting on small values. *)
Example string_of_u8_samples :
  string_of_u8 4 = "4" /\ string_of_u8 42 = "42" /\ string_of_u8 255 = "255".
Proof. repeat split; reflexivity. Qed.

(** Helper: the sibling conversion [From<SignalProtocolError> for PyErr]
    keeps the upstream message. *)
Lemma PyErr_from_keeps_message (e : UpstreamError) :
  py_msg (PyErr_from (mkSignalProtocolError e)) = error_message e.
Proof. reflexivity. Qed.

(** C1: [UnidentifiedSenderMessageContent::new] given the sender-key
    discriminant 4 (the value documented for [SenderKey] in protocol.rs)
    rejects it with "unknown message type: 4" before calling upstream,
    whatever the upstream library does; it builds the [SenderKey] variant
    only from the value 7. *)
Theorem usmc_new_sender_key_discriminant
    {SC U H : Type} (hint_from : N -> H)
    (up : CiphertextMessageType -> SC -> list Byte.byte -> H ->
          option (list Byte.byte) -> result U UpstreamError)
    (sender : SealedSender.SenderCertificate (SenderCertificateData := SC))
    (contents : list Byte.byte) (hint : N) (gid : list Byte.byte) :
  SealedSender.UnidentifiedSenderMessageContent_new hint_from up 4 sender
    contents hint gid
  = PErr (err_from_str "unknown message type: 4")
  /\ SealedSender.UnidentifiedSenderMessageContent_new hint_from up 7 sender
       contents hint gid
     = match up SenderKey (SealedSender.sc_data sender) contents
               (hint_from hint) (Some gid) with
       | Ok data => POk (SealedSender.mkUSMC data)
       | Err e => PErr (new_err e)
       end.
Proof. split; reflexivity. Qed.


(** C4: a [PreKeyBundle::new] call with [pre_key_public = None] panics
    with "todo", and a [PreKeySignalMessage::new] call with
    [pre_key_id = None] panics with "foo", whatever the upstream library
    does: neither returns a value reporting the field as absent. *)
Theorem optional_prekey_panics
    {PK IK BD SMD PMD CD : Type}
    (up_bundle : N -> N -> option (N * PK) -> N -> PK -> list Byte.byte ->
                 IK -> result BD UpstreamError)
    (up_pksm : N -> N -> option N -> N -> option unit -> PK -> IK -> SMD ->
               result PMD UpstreamError)
    (ctor : PMD -> CD)
    (registration_id device_id pre_key_id signed_pre_key_id : N)
    (signed_pre_key_public : State.PublicKey (PublicKeyData := PK))
    (signature : list Byte.byte)
    (identity_key : State.IdentityKey (IdentityKeyData := IK))
    (message_version : N) (base_key : State.PublicKey (PublicKeyData := PK))
    (message : Protocol.SignalMessage (SignalMessageData := SMD)) :
  State.PreKeyBundle_new up_bundle registration_id device_id pre_key_id None
    signed_pre_key_id signed_pre_key_public signature identity_key
  = PPanic "todo"
  /\ Protocol.PreKeySignalMessage_new up_pksm ctor message_version
       registration_id None signed_pre_key_id base_key identity_key message
     = PPanic "foo".
Proof. split; reflexivity. Qed.

(** Helper: the outcome of [process_prekey_bundle] depends on the upstream
    result only through whether it is [Ok] or [Err]. *)
Lemma process_prekey_bundle_outcome
    {A S B R : Type} (up : A -> S -> B -> R -> result unit UpstreamError * S)
    (addr : Session.ProtocolAddress (AddressData := A))
    (st : Session.InMemSignalProtocolStore (StoreData := S)) (b : B) (rng : R) :
  fst (Session.process_prekey_bundle up addr st b rng)
  = match fst (up (Session.addr_state addr) (Session.store st) b rng) with
    | Ok _ => POk tt
    | Err _ => PErr (err_from_str "error processing prekey bundle")
    end.
Proof.
  unfold Session.process_prekey_bundle.
  destruct (up _ _ _ _) as [[[] | e] s']; reflexivity.
Qed.

(** An unverifiable signed-prekey signature and a storage failure, as the
    upstream library could report them. *)
Definition bad_signature_error : UpstreamError :=
  mkUpstreamError SignatureValidationFailed "invalid signature detected".

Definition storage_error : UpstreamError :=
  mkUpstreamError StorageFailure "session store write failed".

(** The upstream [process_prekey_bundle] failing with [e] and leaving the
    store unchanged. *)
Definition failing_upstream (e : UpstreamError)
    (_ : unit) (s : unit) (_ : unit) (_ : unit) : result unit UpstreamError * unit :=
  (Err e, s).

(** C6: [process_prekey_bundle] does not preserve the underlying error: an
    upstream signature failure and an upstream storage failure both reach
    the caller as the same generic message "error processing prekey
    bundle", which differs from the upstream messages. *)
Theorem process_prekey_bundle_replaces_error :
  fst (Session.process_prekey_bundle (failing_upstream bad_signature_error)
         (Session.mkProtocolAddress tt) (Session.mkStore tt) tt tt)
  = PErr (err_from_str "error processing prekey bundle")
  /\ fst (Session.process_prekey_bundle (failing_upstream storage_error)
            (Session.mkProtocolAddress tt) (Session.mkStore tt) tt tt)
     = PErr (err_from_str "error processing prekey bundle")
  /\ py_msg (err_from_str "error processing prekey bundle")
     <> error_message bad_signature_error
  /\ py_msg (err_from_str "error processing prekey bundle")
     <> error_message storage_error.
Proof. repeat split; try reflexivity; discriminate. Qed.

(** Helper: every [MyUuid] a Python caller can hold carries the fixed id. *)
Lemma py_reachable_uuid (u : UuidMod.MyUuid) :
  UuidMod.py_reachable u -> UuidMod.uuid u = UuidMod.fixed_distribution_id.
Proof.
  induction 1 as [|u _ IH].
  - reflexivity.
  - exact IH.
Qed.

(** C10: every [MyUuid] obtained from its constructor (or a clone of one)
    holds the UUID 67e55044-10b1-426f-9247-bb680e5fe0c8; so any two of them
    give equal distribution ids, and [group_encrypt] and
    [create_sender_key_distribution_message] behave identically on them,
    whatever the upstream library does. *)
Theorem my_uuid_single_distribution_id (u1 u2 : UuidMod.MyUuid)
    (H1 : UuidMod.py_reachable u1) (H2 : UuidMod.py_reachable u2) :
  UuidMod.uuid u1 = UuidMod.fixed_distribution_id
  /\ UuidMod.uuid u1 = UuidMod.uuid u2
  /\ (forall (A S K R : Type)
        (up : S -> A -> UuidMod.Uuid -> list Byte.byte -> R ->
              result K UpstreamError * S)
        (ser : K -> list Byte.byte)
        (st : UuidMod.InMemSignalProtocolStore (StoreData := S))
        (sender : UuidMod.ProtocolAddress (AddressData := A))
        (pt : list Byte.byte) (rng : R),
        UuidMod.group_encrypt up ser st sender u1 pt rng
        = UuidMod.group_encrypt up ser st sender u2 pt rng)
  /\ (forall (A S D R : Type)
        (up : A -> UuidMod.Uuid -> S -> R -> result D UpstreamError * S)
        (sender : UuidMod.ProtocolAddress (AddressData := A))
        (st : UuidMod.InMemSignalProtocolStore (StoreData := S)) (rng : R),
        UuidMod.create_sender_key_distribution_message up sender u1 st rng
        = UuidMod.create_sender_key_distribution_message up sender u2 st rng).
Proof.
  pose proof (py_reachable_uuid u1 H1) as E1.
  pose proof (py_reachable_uuid u2 H2) as E2.
  assert (E : UuidMod.uuid u1 = UuidMod.uuid u2) by congruence.
  refine (conj E1 (conj E (conj _ _))); intros.
  - unfold UuidMod.group_encrypt. rewrite E. reflexivity.
  - unfold UuidMod.create_sender_key_distribution_message. rewrite E.
    reflexivity.
Qed.

Lemma my_uuid_single_distribution_id_witness :
  UuidMod.py_reachable UuidMod.MyUuid_new
  /\ UuidMod.py_reachable (UuidMod.MyUuid_clone UuidMod.MyUuid_new)
  /\ UuidMod.uuid UuidMod.MyUuid_new = UuidMod.fixed_distribution_id.
Proof.
  assert (H1 : UuidMod.py_reachable UuidMod.MyUuid_new) by constructor.
  assert (H2 : UuidMod.py_reachable (UuidMod.MyUuid_clone UuidMod.MyUuid_new))
    by (constructor; constructor).
  split; [exact H1|]. split; [exact H2|].
  exact (proj1 (my_uuid_single_distribution_id _ _ H1 H2)).
Defined.

(** ** [generate_n_prekeys] *)

Lemma u32_modulus_pos : Prekeys.u32_modulus <> 0%N.
Proof. unfold Prekeys.u32_modulus. lia. Qed.

Lemma prekey_ids_succ (k : nat) (i : N) :
  Prekeys.prekey_ids (S k) i
  = (i mod Prekeys.u32_modulus)%N
    :: Prekeys.prekey_ids k ((i + 1) mod Prekeys.u32_modulus)%N.
Proof.
  unfold Prekeys.prekey_ids. cbn [seq map].
  rewrite <- seq_shift, map_map. f_equal.
  - rewrite N.add_0_r. reflexivity.
  - apply map_ext. intros j.
    rewrite N.Div0.add_mod_idemp_l.
    f_equal. lia.
Qed.

Lemma generated_keys_succ {KP Rng : Type} (gen : Rng -> KP * Rng)
    (k : nat) (rng : Rng) :
  Prekeys.generated_keys gen (S k) rng
  = fst (gen rng) :: Prekeys.generated_keys gen k (snd (gen rng)).
Proof. cbn. destruct (gen rng). reflexivity. Qed.

Lemma generate_loop_succ {KP R Rng : Type} (checks : bool)
    (gen : Rng -> KP * Rng) (rn : N -> KP -> R) (k : nat) (i : N)
    (rng : Rng) (acc : list (Prekeys.PreKeyRecord (RecordData := R))) :
  Prekeys.generate_loop checks gen rn (S k) i rng acc
  = pbind (Prekeys.u32_incr checks i) (fun i' =>
      Prekeys.generate_loop checks gen rn k i' (snd (gen rng))
        (acc ++ [Prekeys.PreKeyRecord_new rn i (fst (gen rng))])%list).
Proof. cbn [Prekeys.generate_loop]. destruct (gen rng). reflexivity. Qed.

(** Without overflow, the checked loop appends one record per id. *)
Lemma generate_loop_checked {KP R Rng : Type} (gen : Rng -> KP * Rng)
    (rn : N -> KP -> R) (k : nat) :
  forall i rng acc, (i + N.of_nat k < Prekeys.u32_modulus)%N ->
  Prekeys.generate_loop true gen rn k i rng acc
  = POk (acc ++ Prekeys.expected_prekeys rn (Prekeys.prekey_ids k i)
                  (Prekeys.generated_keys gen k rng))%list.
Proof.
  induction k as [|k IH]; intros i rng acc Hb.
  - cbn. rewrite app_nil_r. reflexivity.
  - rewrite generate_loop_succ, prekey_ids_succ, generated_keys_succ.
    unfold Prekeys.u32_incr.
    rewrite (proj2 (N.ltb_lt _ _)) by lia. cbn [pbind].
    rewrite (N.mod_small (i + 1)) by lia.
    rewrite (N.mod_small i) by lia.
    rewrite IH by lia.
    unfold Prekeys.expected_prekeys. cbn [combine map fst snd].
    rewrite <- app_assoc. reflexivity.
Qed.

(** Without overflow checks, the loop appends one record per id, the ids
    wrapping modulo [2^32]. *)
Lemma generate_loop_wrapping {KP R Rng : Type} (gen : Rng -> KP * Rng)
    (rn : N -> KP -> R) (k : nat) :
  forall i rng acc, (i < Prekeys.u32_modulus)%N ->
  Prekeys.generate_loop false gen rn k i rng acc
  = POk (acc ++ Prekeys.expected_prekeys rn (Prekeys.prekey_ids k i)
                  (Prekeys.generated_keys gen k rng))%list.
Proof.
  induction k as [|k IH]; intros i rng acc Hb.
  - cbn. rewrite app_nil_r. reflexivity.
  - rewrite generate_loop_succ, prekey_ids_succ, generated_keys_succ.
    unfold Prekeys.u32_incr. cbn [pbind].
    rewrite (N.mod_small i) by lia.
    rewrite IH by (apply N.mod_lt; exact u32_modulus_pos).
    unfold Prekeys.expected_prekeys. cbn [combine map fst snd].
    rewrite <- app_assoc. reflexivity.
Qed.

(** With overflow checks, reaching [u32::MAX] within the loop panics. *)
Lemma generate_loop_overflow {KP R Rng : Type} (gen : Rng -> KP * Rng)
    (rn : N -> KP -> R) (k : nat) :
  forall i rng acc, (0 < k)%nat ->
  (Prekeys.u32_modulus <= i + N.of_nat k)%N ->
  Prekeys.generate_loop true gen rn k i rng acc
  = PPanic "attempt to add with overflow".
Proof.
  induction k as [|k IH]; intros i rng acc Hk Hb; [lia|].
  rewrite generate_loop_succ. unfold Prekeys.u32_incr.
  destruct (N.ltb_spec (i + 1) Prekeys.u32_modulus) as [Hlt|Hge].
  - cbn [pbind]. apply IH; lia.
  - reflexivity.
Qed.

(** [generate_n_prekeys] with [id + n] below [2^32] returns [n] records
    whose ids are [id], [id + 1], ..., [id + n - 1], paired in order with
    the successively generated key pairs, with or without overflow checks. *)
Theorem generate_n_prekeys_consecutive_ids {KP R Rng : Type}
    (checks : bool) (gen : Rng -> KP * Rng) (rn : N -> KP -> R)
    (n id : N) (rng : Rng) (Hb : (id + n < Prekeys.u32_modulus)%N) :
  Prekeys.generate_n_prekeys checks gen rn n id rng
  = POk (Prekeys.expected_prekeys rn
           (map (fun j => (id + N.of_nat j)%N) (seq 0 (N.to_nat n)))
           (Prekeys.generated_keys gen (N.to_nat n) rng)).
Proof.
  assert (Hids : map (fun j => (id + N.of_nat j)%N) (seq 0 (N.to_nat n))
                 = Prekeys.prekey_ids (N.to_nat n) id).
  { unfold Prekeys.prekey_ids. apply map_ext_in. intros j Hj.
    apply in_seq in Hj. rewrite N.mod_small; [reflexivity|]. lia. }
  rewrite Hids. unfold Prekeys.generate_n_prekeys.
  destruct checks.
  - rewrite generate_loop_checked by lia. reflexivity.
  - rewrite generate_loop_wrapping by lia. reflexivity.
Qed.

Lemma generate_n_prekeys_consecutive_ids_witness :
  (5 + 3 < Prekeys.u32_modulus)%N
  /\ Prekeys.generate_n_prekeys true (fun r : N => (r, (r + 1)%N)) pair 3 5 0%N
     = POk [Prekeys.mkPreKeyRecord (5, 0); Prekeys.mkPreKeyRecord (6, 1);
            Prekeys.mkPreKeyRecord (7, 2)]%N.
Proof.
  assert (H : (5 + 3 < Prekeys.u32_modulus)%N)
    by (unfold Prekeys.u32_modulus; lia).
  split; [exact H|].
  rewrite (generate_n_prekeys_consecutive_ids true (fun r : N => (r, (r + 1)%N))
             pair 3 5 0%N H).
  reflexivity.
Defined.

(** When [id + n] reaches [2^32] (with [n > 0]), [generate_n_prekeys] built
    with overflow checks panics on [i += 1]; built without them it returns
    [n] records whose ids wrap around modulo [2^32]. *)
Theorem generate_n_prekeys_overflow {KP R Rng : Type}
    (gen : Rng -> KP * Rng) (rn : N -> KP -> R) (n id : N) (rng : Rng)
    (Hid : (id < Prekeys.u32_modulus)%N) (Hn : (0 < n)%N)
    (Hb : (Prekeys.u32_modulus <= id + n)%N) :
  Prekeys.generate_n_prekeys true gen rn n id rng
  = PPanic "attempt to add with overflow"
  /\ Prekeys.generate_n_prekeys false gen rn n id rng
     = POk (Prekeys.expected_prekeys rn (Prekeys.prekey_ids (N.to_nat n) id)
              (Prekeys.generated_keys gen (N.to_nat n) rng)).
Proof.
  unfold Prekeys.generate_n_prekeys. split.
  - apply generate_loop_overflow; lia.
  - rewrite generate_loop_wrapping by exact Hid. reflexivity.
Qed.

Lemma generate_n_prekeys_overflow_witness :
  (4294967294 < Prekeys.u32_modulus)%N /\ (0 < 3)%N
  /\ (Prekeys.u32_modulus <= 4294967294 + 3)%N
  /\ Prekeys.generate_n_prekeys false (fun r : N => (r, (r + 1)%N)) pair 3
       4294967294 0%N
     = POk [Prekeys.mkPreKeyRecord (4294967294, 0);
            Prekeys.mkPreKeyRecord (4294967295, 1);
            Prekeys.mkPreKeyRecord (0, 2)]%N.
Proof.
  assert (H1 : (4294967294 < Prekeys.u32_modulus)%N)
    by (unfold Prekeys.u32_modulus; lia).
  assert (H2 : (0 < 3)%N) by lia.
  assert (H3 : (Prekeys.u32_modulus <= 4294967294 + 3)%N)
    by (unfold Prekeys.u32_modulus; lia).
  split; [exact H1|]. split; [exact H2|]. split; [exact H3|].
  rewrite (proj2 (generate_n_prekeys_overflow (fun r : N => (r, (r + 1)%N))
                    pair 3 4294967294 0%N H1 H2 H3)).
  vm_compute. reflexivity.
Defined.

(** ** Constructors *)




(** ** Sessions: no rollback *)





(** ** Distribution ids given as strings *)




(** ** Group cipher: errors keep their message, store updates are kept *)



